(** * The ART runtime object: [runtime/runtime.h]

    A shallow embedding of [class Runtime] and of the member functions whose
    bodies are written in the header, followed by the lifecycle, thread-birth
    and method-registry properties of the runtime.

    Conventions of the embedding:
    - a C++ pointer is an address ([N]); [NULL] is address 0;
    - [size_t] is a [Z] kept in [0, 2^size_bits) by an explicit wrap-around;
      the width is a parameter of the platform, not of the header;
    - a member function is a computation over the object it is called on,
      which may return, abort the process (a failed CHECK), or leave the
      behaviour defined by the language (a read past the end of an array);
    - the lock annotations (EXCLUSIVE_LOCKS_REQUIRED and the like) are static
      annotations with no run-time effect and have no counterpart here. *)

From Stdlib Require Import ZArith Lia.
From stdpp Require Import base option list vector strings.

Local Open Scope Z_scope.

(** ** Pointers *)

Definition ptr : Type := N.
Definition NULL : ptr := 0%N.

Definition is_null (p : ptr) : bool := (p =? NULL)%N.

(** ** Computations over an object *)

Inductive outcome (S A : Type) : Type :=
| Returns (a : A) (s : S)
| Aborts
| Undefined.

Arguments Returns {S A} a s.
Arguments Aborts {S A}.
Arguments Undefined {S A}.

Definition prog (S A : Type) : Type := S -> outcome S A.

#[global] Instance prog_ret {S} : MRet (prog S) :=
  fun A (a : A) s => Returns a s.

#[global] Instance prog_bind {S} : MBind (prog S) :=
  fun A B (k : A -> prog S B) (m : prog S A) s =>
    match m s with
    | Returns a s' => k a s'
    | Aborts => Aborts
    | Undefined => Undefined
    end.

#[global] Instance prog_fmap {S} : FMap (prog S) :=
  fun A B (f : A -> B) (m : prog S A) => a ← m; mret (f a).

Definition gets {S A} (f : S -> A) : prog S A := fun s => Returns (f s) s.
Definition modify {S} (f : S -> S) : prog S unit := fun s => Returns tt (f s).
Definition abort {S A} : prog S A := fun _ => Aborts.
Definition undefined {S A} : prog S A := fun _ => Undefined.

(** Modelled from the spec: the macros CHECK and DCHECK are defined in
    base/logging.h, which the header only includes.  A violated precondition
    aborts the process at once; a debug-checked one does so in a build with
    debug checks enabled and is compiled out, condition included, otherwise. *)
Definition CHECK {S} (c : prog S bool) : prog S unit :=
  c ≫= fun b : bool => if b then mret tt else abort.

Definition DCHECK {S} (kEnableDChecks : bool) (c : prog S bool) : prog S unit :=
  if kEnableDChecks then CHECK c else mret tt.

(** Reading [a[i]] from a C array of [n] elements. *)
Definition array_read {S A n} (a : vec A n) (i : nat) : prog S A :=
  match vec_to_list a !! i with
  | Some x => mret x
  | None => undefined
  end.

(** ** [size_t] *)

Definition size_wrap (size_bits : N) (z : Z) : Z := z mod 2 ^ Z.of_N size_bits.

(** ** [enum CalleeSaveType] *)

Inductive CalleeSaveType : Type :=
| kSaveAll
| kRefsOnly
| kRefsAndArgs
| kLastCalleeSaveType.

Definition CalleeSaveType_value (t : CalleeSaveType) : nat :=
  match t with
  | kSaveAll => 0
  | kRefsOnly => 1
  | kRefsAndArgs => 2
  | kLastCalleeSaveType => 3
  end%nat.

#[global] Instance CalleeSaveType_eq_dec : EqDecision CalleeSaveType.
Proof. solve_decision. Defined.

(** ** [class Runtime] *)

(** The condition variable [shutdown_cond_] is observed through the number of
    broadcasts it has received. *)
Record ConditionVariable : Type := mkConditionVariable {
  broadcasts : nat
}.

(** The data members read or written by the functions below, in the order of
    the header. *)
Record Runtime : Type := mkRuntime {
  is_compiler_ : bool;
  is_zygote_ : bool;
  host_prefix_ : string;
  heap_ : ptr;
  monitor_list_ : ptr;
  thread_list_ : ptr;
  intern_table_ : ptr;
  class_linker_ : ptr;
  java_vm_ : ptr;
  callee_save_methods_ : vec ptr (CalleeSaveType_value kLastCalleeSaveType);
  resolution_method_ : ptr;
  threads_being_born_ : Z;
  shutdown_cond_ : ConditionVariable;
  shutting_down_ : bool;
  shutting_down_started_ : bool;
  started_ : bool;
  finished_starting_ : bool
}.

Definition set_resolution_method_ (p : ptr) (r : Runtime) : Runtime :=
  mkRuntime (is_compiler_ r) (is_zygote_ r) (host_prefix_ r) (heap_ r)
    (monitor_list_ r) (thread_list_ r) (intern_table_ r) (class_linker_ r)
    (java_vm_ r) (callee_save_methods_ r) p (threads_being_born_ r)
    (shutdown_cond_ r) (shutting_down_ r) (shutting_down_started_ r)
    (started_ r) (finished_starting_ r).

Definition set_threads_being_born_ (n : Z) (r : Runtime) : Runtime :=
  mkRuntime (is_compiler_ r) (is_zygote_ r) (host_prefix_ r) (heap_ r)
    (monitor_list_ r) (thread_list_ r) (intern_table_ r) (class_linker_ r)
    (java_vm_ r) (callee_save_methods_ r) (resolution_method_ r) n
    (shutdown_cond_ r) (shutting_down_ r) (shutting_down_started_ r)
    (started_ r) (finished_starting_ r).

Definition set_shutdown_cond_ (c : ConditionVariable) (r : Runtime) : Runtime :=
  mkRuntime (is_compiler_ r) (is_zygote_ r) (host_prefix_ r) (heap_ r)
    (monitor_list_ r) (thread_list_ r) (intern_table_ r) (class_linker_ r)
    (java_vm_ r) (callee_save_methods_ r) (resolution_method_ r)
    (threads_being_born_ r) c (shutting_down_ r) (shutting_down_started_ r)
    (started_ r) (finished_starting_ r).

Definition set_callee_save_methods_
    (a : vec ptr (CalleeSaveType_value kLastCalleeSaveType)) (r : Runtime)
    : Runtime :=
  mkRuntime (is_compiler_ r) (is_zygote_ r) (host_prefix_ r) (heap_ r)
    (monitor_list_ r) (thread_list_ r) (intern_table_ r) (class_linker_ r)
    (java_vm_ r) a (resolution_method_ r) (threads_being_born_ r)
    (shutdown_cond_ r) (shutting_down_ r) (shutting_down_started_ r)
    (started_ r) (finished_starting_ r).

Definition set_shutting_down_ (b : bool) (r : Runtime) : Runtime :=
  mkRuntime (is_compiler_ r) (is_zygote_ r) (host_prefix_ r) (heap_ r)
    (monitor_list_ r) (thread_list_ r) (intern_table_ r) (class_linker_ r)
    (java_vm_ r) (callee_save_methods_ r) (resolution_method_ r)
    (threads_being_born_ r) (shutdown_cond_ r) b (shutting_down_started_ r)
    (started_ r) (finished_starting_ r).

(** ** Member functions defined in the header *)

Section Header.

(** Whether DCHECKs are compiled in, and the width of [size_t]. *)
Variable kEnableDChecks : bool.
Variable size_bits : N.

Definition IsCompiler : prog Runtime bool := gets is_compiler_.

Definition IsZygote : prog Runtime bool := gets is_zygote_.

Definition IsStarted : prog Runtime bool := gets started_.

Definition IsFinishedStarting : prog Runtime bool := gets finished_starting_.

Definition GetHostPrefix : prog Runtime string :=
  DCHECK kEnableDChecks (negb <$> IsStarted);;
  gets host_prefix_.

Definition IsShuttingDown : prog Runtime bool := gets shutting_down_.

Definition NumberOfThreadsBeingBorn : prog Runtime Z := gets threads_being_born_.

Definition StartThreadBirth : prog Runtime unit :=
  modify (fun r =>
    set_threads_being_born_ (size_wrap size_bits (threads_being_born_ r + 1)) r).

Definition HasResolutionMethod : prog Runtime bool :=
  p ← gets resolution_method_; mret (negb (is_null p)).

Definition GetResolutionMethod : prog Runtime ptr :=
  CHECK HasResolutionMethod;;
  gets resolution_method_.

Definition SetResolutionMethod (method : ptr) : prog Runtime unit :=
  modify (set_resolution_method_ method).

Definition HasCalleeSaveMethod (type : CalleeSaveType) : prog Runtime bool :=
  a ← gets callee_save_methods_;
  p ← array_read a (CalleeSaveType_value type);
  mret (negb (is_null p)).

Definition GetCalleeSaveMethod (type : CalleeSaveType) : prog Runtime ptr :=
  DCHECK kEnableDChecks (HasCalleeSaveMethod type);;
  a ← gets callee_save_methods_;
  array_read a (CalleeSaveType_value type).

(** Modelled from the spec: [EndThreadBirth] is declared in the header and
    defined in runtime.cc.  It decrements the counter and, if shutdown is
    pending and the counter reaches zero, signals the waiting shutdown
    thread.  "Pending" is the member [shutting_down_started_] (the runtime is
    starting to shut down but is blocked waiting on [shutdown_cond_]). *)
Definition EndThreadBirth : prog Runtime unit :=
  modify (fun r =>
    set_threads_being_born_ (size_wrap size_bits (threads_being_born_ r - 1)) r);;
  pending ← gets shutting_down_started_;
  n ← gets threads_being_born_;
  if pending && (n =? 0)
  then modify (fun r =>
         set_shutdown_cond_
           (mkConditionVariable (S (broadcasts (shutdown_cond_ r)))) r)
  else mret tt.

End Header.

(** ** Sequences of thread-birth calls *)

Inductive birth_call : Type :=
| Start
| End_.

(** The number of births in flight after each call of a sequence, starting
    with [open] births in flight. *)
Fixpoint births_in_flight (open : nat) (calls : list birth_call) : list nat :=
  match calls with
  | [] => []
  | Start :: k => S open :: births_in_flight (S open) k
  | End_ :: k => pred open :: births_in_flight (pred open) k
  end.

(** A sequence is properly paired when every [EndThreadBirth] closes an
    earlier [StartThreadBirth] that is still open, and none stays open. *)
Fixpoint paired_from (open : nat) (calls : list birth_call) : bool :=
  match calls with
  | [] => Nat.eqb open 0
  | Start :: k => paired_from (S open) k
  | End_ :: k =>
      match open with
      | O => false
      | S n => paired_from n k
      end
  end.

Definition properly_paired (calls : list birth_call) : bool :=
  paired_from 0 calls.

Section BirthCalls.

Variable size_bits : N.

Definition birth_step (c : birth_call) : prog Runtime Z :=
  match c with
  | Start => StartThreadBirth size_bits
  | End_ => EndThreadBirth size_bits
  end;;
  NumberOfThreadsBeingBorn.

(** Runs the calls in order and records what [NumberOfThreadsBeingBorn]
    returns after each of them. *)
Fixpoint birth_run (calls : list birth_call) : prog Runtime (list Z) :=
  match calls with
  | [] => mret []
  | c :: k =>
      n ← birth_step c;
      ns ← birth_run k;
      mret (n :: ns)
  end.

End BirthCalls.

(** ** Creation of the runtime *)

(** [Runtime::Options]: a vector of (string, pointer) pairs. *)
Definition Options : Type := list (string * ptr).

Module ParsedOptions.

(** The members of [class ParsedOptions] that [Runtime] copies into the
    members modelled above. *)
Record t : Type := mk {
  host_prefix_ : string;
  is_compiler_ : bool;
  is_zygote_ : bool
}.

Section Parser.

(** Command-line option parsing is an external collaborator.  It is seen
    through what it makes of one option: an update of the parsed options, or
    nothing when it has a problem with the option. *)
Variable parse_option : string * ptr -> option (t -> t).

Fixpoint parse (options : Options) (ignore_unrecognized : bool) (acc : t)
    : option t :=
  match options with
  | [] => Some acc
  | o :: rest =>
      match parse_option o with
      | Some update => parse rest ignore_unrecognized (update acc)
      | None =>
          if ignore_unrecognized
          then parse rest ignore_unrecognized acc
          else None
      end
  end.

Variable defaults : t.

(** Modelled from the spec: [ParsedOptions::Create] is declared in the
    header and defined in runtime.cc.  It returns null (here [None]) if there
    is a problem parsing and [ignore_unrecognized] is false. *)
Definition Create (options : Options) (ignore_unrecognized : bool) : option t :=
  parse options ignore_unrecognized defaults.

End Parser.

End ParsedOptions.

(** The handles of the subsystems the runtime constructs in [Init]. *)
Record Subsystems : Type := mkSubsystems {
  sub_heap : ptr;
  sub_monitor_list : ptr;
  sub_thread_list : ptr;
  sub_intern_table : ptr;
  sub_class_linker : ptr;
  sub_java_vm : ptr
}.

(** The process-wide state: [static Runtime* instance_], a pointer to the
    active runtime or NULL. *)
Record Process : Type := mkProcess {
  instance_ : option Runtime
}.


(** Modelled from the spec: the constructor [Runtime()] is defined in
    runtime.cc.  A runtime that has not been initialized has no subsystem, no
    descriptor, no thread being born, and none of its flags set. *)
Definition Runtime_new : Runtime :=
  mkRuntime false false "" NULL NULL NULL NULL NULL NULL
    (vreplicate (CalleeSaveType_value kLastCalleeSaveType) NULL) NULL 0
    (mkConditionVariable 0) false false false false.

Definition install (po : ParsedOptions.t) (sub : Subsystems) (r : Runtime)
    : Runtime :=
  mkRuntime (ParsedOptions.is_compiler_ po) (ParsedOptions.is_zygote_ po)
    (ParsedOptions.host_prefix_ po) (sub_heap sub) (sub_monitor_list sub)
    (sub_thread_list sub) (sub_intern_table sub) (sub_class_linker sub)
    (sub_java_vm sub) (callee_save_methods_ r) (resolution_method_ r)
    (threads_being_born_ r) (shutdown_cond_ r) (shutting_down_ r)
    (shutting_down_started_ r) (started_ r) (finished_starting_ r).

Section Creation.

Variable parse_option : string * ptr -> option (ParsedOptions.t -> ParsedOptions.t).
Variable defaults : ParsedOptions.t.

(** The construction of the owned subsystems from the parsed options, or
    nothing when one of them fails to construct. *)
Variable construct_subsystems : ParsedOptions.t -> option Subsystems.

(** Modelled from the spec: [Init] is declared in the header and defined in
    runtime.cc.  It parses the configuration and constructs the owned
    subsystems, and fails when either does. *)
Definition Init (raw_options : Options) (ignore_unrecognized : bool)
    : prog Runtime bool :=
  match ParsedOptions.Create parse_option defaults raw_options
          ignore_unrecognized with
  | None => mret false
  | Some options =>
      match construct_subsystems options with
      | None => mret false
      | Some sub => modify (install options sub);; mret true
      end
  end.

(** Modelled from the spec: [Runtime::Create] is declared in the header and
    defined in runtime.cc.  Exactly one instance may exist per process, and
    the instance is constructed once through a guarded factory that answers
    success or failure: with an instance already current, [Create] fails and
    leaves it alone.  Otherwise it constructs the singleton and calls [Init];
    when [Init] fails there is no instance. *)
Definition Create (options : Options) (ignore_unrecognized : bool)
    : prog Process bool :=
  fun p =>
    match instance_ p with
    | Some _ => Returns false p
    | None =>
        match Init options ignore_unrecognized Runtime_new with
        | Returns true r => Returns true (mkProcess (Some r))
        | Returns false _ => Returns false (mkProcess None)
        | Aborts => Aborts
        | Undefined => Undefined
        end
    end.

End Creation.

(** ** Repeated calls and observed results *)

(** [n] calls of the same member function, one after the other. *)
Fixpoint repeat_call {S} (n : nat) (m : prog S unit) : prog S unit :=
  match n with
  | O => mret tt
  | S k => m;; repeat_call k m
  end.

(** What the caller of a member function sees of its outcome: the value
    returned, or the abort, without the object it leaves behind. *)
Definition result {S A} (o : outcome S A) : outcome unit A :=
  match o with
  | Returns a _ => Returns a tt
  | Aborts => Aborts
  | Undefined => Undefined
  end.

(** * Properties *)

(** Unfolds the sequencing of a computation down to its outcome. *)
Ltac run_prog :=
  cbv beta iota delta
    [mbind prog_bind mret prog_ret fmap prog_fmap gets modify abort undefined
     CHECK DCHECK].

(** ** The descriptor slots *)

Lemma callee_save_slots (a : vec ptr (CalleeSaveType_value kLastCalleeSaveType)) :
  exists p0 p1 p2, vec_to_list a = [p0; p1; p2].
Proof.
  simpl in a. inv_vec a. intros p0 p1 p2. by exists p0, p1, p2.
Qed.

Lemma callee_save_slot_lookup
    (a : vec ptr (CalleeSaveType_value kLastCalleeSaveType)) (type : CalleeSaveType) :
  type <> kLastCalleeSaveType ->
  is_Some (vec_to_list a !! CalleeSaveType_value type).
Proof.
  intros Hty. destruct (callee_save_slots a) as (p0 & p1 & p2 & ->).
  destruct type; simpl; eauto. congruence.
Qed.

Lemma callee_save_slot_last
    (a : vec ptr (CalleeSaveType_value kLastCalleeSaveType)) :
  vec_to_list a !! CalleeSaveType_value kLastCalleeSaveType = None.
Proof.
  apply lookup_ge_None_2. by rewrite length_vec_to_list.
Qed.

Lemma is_null_spec (p : ptr) : is_null p = true <-> p = NULL.
Proof. unfold is_null. apply N.eqb_eq. Qed.

Lemma is_null_false (p : ptr) : is_null p = false <-> p <> NULL.
Proof. unfold is_null. apply N.eqb_neq. Qed.

(** ** The resolution method *)

(** C3: [GetResolutionMethod] aborts on its CHECK exactly when
    [HasResolutionMethod()] is false, that is when the slot is NULL; when it
    is true the call returns the installed descriptor, leaves the runtime as
    it was, and the failing branch is not taken. *)
Theorem GetResolutionMethod_checked (r : Runtime) :
  exists b : bool,
    HasResolutionMethod r = Returns b r /\
    (b = false <-> resolution_method_ r = NULL) /\
    GetResolutionMethod r =
      (if b then Returns (resolution_method_ r) r else Aborts) /\
    (b = true -> GetResolutionMethod r <> Aborts).
Proof.
  exists (negb (is_null (resolution_method_ r))).
  unfold GetResolutionMethod, HasResolutionMethod. run_prog.
  repeat split.
  - intros Hb. apply is_null_spec. by apply negb_false_iff.
  - intros Hn. apply negb_false_iff. by apply is_null_spec.
  - by destruct (is_null (resolution_method_ r)).
  - intros ->. discriminate.
Qed.

(** C8: storing a non-null method with [SetResolutionMethod] and reading the
    slot back with [GetResolutionMethod] returns that method, and
    [HasResolutionMethod] answers true exactly when the slot is not NULL. *)
Theorem SetResolutionMethod_roundtrip (method : ptr) (r : Runtime) :
  (method <> NULL ->
   (SetResolutionMethod method;; GetResolutionMethod) r =
     Returns method (set_resolution_method_ method r)) /\
  (exists b : bool, HasResolutionMethod r = Returns b r) /\
  (HasResolutionMethod r = Returns true r <-> resolution_method_ r <> NULL).
Proof.
  split; [|split].
  - intros Hm. apply is_null_false in Hm.
    unfold SetResolutionMethod, GetResolutionMethod, HasResolutionMethod.
    run_prog. cbn. by rewrite Hm.
  - by eexists.
  - unfold HasResolutionMethod. run_prog. split.
    + intros Hr. apply is_null_false. apply negb_true_iff. congruence.
    + intros Hn. apply is_null_false in Hn. by rewrite Hn.
Qed.

Lemma SetResolutionMethod_roundtrip_witness :
  (7%N : ptr) <> NULL /\
  (SetResolutionMethod 7%N;; GetResolutionMethod) Runtime_new =
    Returns 7%N (set_resolution_method_ 7%N Runtime_new).
Proof.
  split; [discriminate|].
  apply (proj1 (SetResolutionMethod_roundtrip 7%N Runtime_new)). discriminate.
Defined.

(** ** The host prefix *)

(** C9: [GetHostPrefix] carries a debug-checked precondition that the runtime
    has not started.  While [IsStarted()] is false it returns the stored
    string in every build; once it is true the call aborts in a build with
    debug checks (and still returns the string in a build without them). *)
Theorem GetHostPrefix_before_start (kEnableDChecks : bool) (r : Runtime) :
  IsStarted r = Returns (started_ r) r /\
  (started_ r = false ->
   GetHostPrefix kEnableDChecks r = Returns (host_prefix_ r) r) /\
  (started_ r = true ->
   GetHostPrefix true r = Aborts /\
   GetHostPrefix false r = Returns (host_prefix_ r) r).
Proof.
  unfold GetHostPrefix, IsStarted.
  split; [done|]. split; intros Hs.
  - destruct kEnableDChecks; run_prog; by rewrite ?Hs.
  - run_prog. by rewrite Hs.
Qed.

Lemma GetHostPrefix_before_start_witness :
  started_ Runtime_new = false /\
  GetHostPrefix true Runtime_new = Returns (host_prefix_ Runtime_new) Runtime_new.
Proof.
  split; [reflexivity|].
  exact (proj1 (proj2 (GetHostPrefix_before_start true Runtime_new)) eq_refl).
Defined.

(** ** The callee-save methods *)

(** C4: [HasCalleeSaveMethod] and [GetCalleeSaveMethod] leave the runtime as
    it was.  For a callee-save type whose slot is still NULL,
    [GetCalleeSaveMethod] aborts on its DCHECK in a build with debug checks
    (and returns NULL in a build without them); when
    [HasCalleeSaveMethod(type)] holds it returns the slot's descriptor, which
    is not NULL, in every build. *)
Theorem CalleeSaveMethod_queries (kEnableDChecks : bool)
    (type : CalleeSaveType) (r : Runtime) :
  type <> kLastCalleeSaveType ->
  exists p : ptr,
    vec_to_list (callee_save_methods_ r) !! CalleeSaveType_value type = Some p /\
    HasCalleeSaveMethod type r = Returns (negb (is_null p)) r /\
    (HasCalleeSaveMethod type r = Returns false r ->
     p = NULL /\
     GetCalleeSaveMethod true type r = Aborts /\
     GetCalleeSaveMethod false type r = Returns NULL r) /\
    (HasCalleeSaveMethod type r = Returns true r ->
     p <> NULL /\
     GetCalleeSaveMethod kEnableDChecks type r = Returns p r).
Proof.
  intros Hty.
  destruct (callee_save_slot_lookup (callee_save_methods_ r) type Hty)
    as [p Hp].
  exists p. split; [done|].
  assert (Hhas : HasCalleeSaveMethod type r = Returns (negb (is_null p)) r).
  { unfold HasCalleeSaveMethod, array_read. run_prog. by rewrite Hp. }
  split; [done|]. rewrite Hhas.
  unfold GetCalleeSaveMethod, HasCalleeSaveMethod, array_read.
  split; intros Hb; injection Hb as Hb.
  - apply negb_false_iff in Hb. pose proof Hb as ->%is_null_spec.
    split; [done|]. run_prog. by rewrite Hp.
  - apply negb_true_iff in Hb. split; [by apply is_null_false|].
    destruct kEnableDChecks; run_prog; rewrite Hp, ?Hb; cbv beta iota delta [negb];
      by rewrite ?Hp.
Qed.

Lemma CalleeSaveMethod_queries_witness :
  kRefsOnly <> kLastCalleeSaveType /\
  exists p : ptr,
    HasCalleeSaveMethod kRefsOnly
      (set_callee_save_methods_ [# NULL; 9%N; NULL] Runtime_new) =
      Returns (negb (is_null p))
        (set_callee_save_methods_ [# NULL; 9%N; NULL] Runtime_new).
Proof.
  split; [discriminate|].
  destruct (CalleeSaveMethod_queries true kRefsOnly
              (set_callee_save_methods_ [# NULL; 9%N; NULL] Runtime_new))
    as (p & _ & Hhas & _); [discriminate|].
  exists p. exact Hhas.
Defined.

(** C10: the descriptors are stored in an array of exactly
    [kLastCalleeSaveType] = 3 slots.  The index that [HasCalleeSaveMethod]
    and [GetCalleeSaveMethod] compute is inside the array for [kSaveAll],
    [kRefsOnly] and [kRefsAndArgs], and only for them: with
    [kLastCalleeSaveType] both read past the end of the array. *)
Theorem callee_save_methods_bounds (type : CalleeSaveType) (r : Runtime) :
  length (vec_to_list (callee_save_methods_ r)) =
    CalleeSaveType_value kLastCalleeSaveType /\
  CalleeSaveType_value kLastCalleeSaveType = 3%nat /\
  ((CalleeSaveType_value type < length (vec_to_list (callee_save_methods_ r)))%nat
     <-> type <> kLastCalleeSaveType) /\
  (HasCalleeSaveMethod type r = Undefined <-> type = kLastCalleeSaveType) /\
  (forall kEnableDChecks,
     GetCalleeSaveMethod kEnableDChecks type r = Undefined
       <-> type = kLastCalleeSaveType).
Proof.
  split; [apply length_vec_to_list|]. split; [done|].
  rewrite length_vec_to_list.
  split; [|split; [|intros dbg]].
  - destruct type; cbn; split; try done; lia.
  - unfold HasCalleeSaveMethod, array_read. run_prog.
    destruct (decide (type = kLastCalleeSaveType)) as [->|Hty].
    + by rewrite callee_save_slot_last.
    + destruct (callee_save_slot_lookup (callee_save_methods_ r) type Hty)
        as [p ->]. done.
  - unfold GetCalleeSaveMethod, HasCalleeSaveMethod, array_read.
    destruct (decide (type = kLastCalleeSaveType)) as [->|Hty].
    + destruct dbg; run_prog; by rewrite callee_save_slot_last.
    + destruct (callee_save_slot_lookup (callee_save_methods_ r) type Hty)
        as [p Hp].
      destruct dbg; run_prog; rewrite Hp; [destruct (is_null p)|];
        cbv beta iota delta [negb]; rewrite ?Hp;
        (split; [discriminate|done]).
Qed.

(** ** Thread birth *)

Lemma size_wrap_range (size_bits : N) (z : Z) :
  0 <= size_wrap size_bits z < 2 ^ Z.of_N size_bits.
Proof. unfold size_wrap. apply Z.mod_pos_bound. lia. Qed.

Lemma size_wrap_small (size_bits : N) (z : Z) :
  0 <= z < 2 ^ Z.of_N size_bits -> size_wrap size_bits z = z.
Proof. unfold size_wrap. apply Z.mod_small. Qed.

(** C1, as stated, fails: on a 32-bit runtime whose shutdown flag is set and
    which has no thread being born, [StartThreadBirth] returns normally and
    the counter goes from 0 to 1. *)
Lemma StartThreadBirth_during_shutdown_counterexample :
  let r := set_shutting_down_ true Runtime_new in
  shutting_down_ r = true /\
  StartThreadBirth 32 r <> Aborts /\
  StartThreadBirth 32 r = Returns tt (set_threads_being_born_ 1 r) /\
  threads_being_born_ (set_threads_being_born_ 1 r) <> threads_being_born_ r.
Proof. cbv zeta. repeat split; try discriminate. Qed.

(** C1, amended: [StartThreadBirth] does not read the shutdown flag and has
    no failing path.  In every state, shutting down or not, it returns
    normally, replaces the counter by its successor modulo the range of
    [size_t], and changes no other member; below [SIZE_MAX] that is an
    increment by exactly one. *)
Theorem StartThreadBirth_unconditional (size_bits : N) (r : Runtime) :
  exists r' : Runtime,
    StartThreadBirth size_bits r = Returns tt r' /\
    r' = set_threads_being_born_ (threads_being_born_ r') r /\
    shutting_down_ r' = shutting_down_ r /\
    threads_being_born_ r' = size_wrap size_bits (threads_being_born_ r + 1) /\
    (0 <= threads_being_born_ r < 2 ^ Z.of_N size_bits - 1 ->
     threads_being_born_ r' = threads_being_born_ r + 1).
Proof.
  eexists. split; [reflexivity|]. cbn. repeat split.
  intros Hr. apply size_wrap_small. lia.
Qed.

Lemma StartThreadBirth_unconditional_witness :
  exists r' : Runtime,
    StartThreadBirth 32 (set_shutting_down_ true Runtime_new) = Returns tt r' /\
    threads_being_born_ r' = 1.
Proof.
  destruct (StartThreadBirth_unconditional 32
              (set_shutting_down_ true Runtime_new))
    as (r' & Hrun & _ & _ & _ & Hinc).
  exists r'. split; [exact Hrun|]. rewrite Hinc; cbn; lia.
Defined.

Lemma size_wrap_succ (size_bits : N) (z : Z) :
  size_wrap size_bits (size_wrap size_bits z + 1) = size_wrap size_bits (z + 1).
Proof. unfold size_wrap. apply Z.add_mod_idemp_l. lia. Qed.

Lemma size_wrap_pred (size_bits : N) (z : Z) :
  size_wrap size_bits (size_wrap size_bits z - 1) = size_wrap size_bits (z - 1).
Proof. unfold size_wrap. apply Zminus_mod_idemp_l. Qed.

Lemma birth_step_Start (size_bits : N) (r : Runtime) :
  exists r' : Runtime,
    birth_step size_bits Start r =
      Returns (size_wrap size_bits (threads_being_born_ r + 1)) r' /\
    threads_being_born_ r' = size_wrap size_bits (threads_being_born_ r + 1).
Proof. eexists. split; reflexivity. Qed.

Lemma birth_step_End (size_bits : N) (r : Runtime) :
  exists r' : Runtime,
    birth_step size_bits End_ r =
      Returns (size_wrap size_bits (threads_being_born_ r - 1)) r' /\
    threads_being_born_ r' = size_wrap size_bits (threads_being_born_ r - 1).
Proof.
  unfold birth_step, EndThreadBirth, NumberOfThreadsBeingBorn. run_prog.
  cbn [threads_being_born_ set_threads_being_born_ shutting_down_started_].
  destruct (shutting_down_started_ r &&
            (size_wrap size_bits (threads_being_born_ r - 1) =? 0));
    eexists; split; reflexivity.
Qed.

(** The counter follows the number of births in flight, modulo the range of
    [size_t], along any sequence in which no [EndThreadBirth] comes without
    an open [StartThreadBirth]. *)
Lemma birth_run_tracks (size_bits : N) (calls : list birth_call) :
  forall (open : nat) (r : Runtime),
    paired_from open calls = true ->
    threads_being_born_ r = size_wrap size_bits (Z.of_nat open) ->
    exists r' : Runtime,
      birth_run size_bits calls r =
        Returns
          (map (fun d => size_wrap size_bits (Z.of_nat d))
             (births_in_flight open calls)) r' /\
      threads_being_born_ r' = 0.
Proof.
  induction calls as [|c calls IH]; intros open r Hp Hr.
  - exists r. split; [reflexivity|].
    cbn in Hp. apply Nat.eqb_eq in Hp. subst open. by rewrite Hr.
  - destruct c.
    + destruct (birth_step_Start size_bits r) as (r1 & Hstep & Hr1).
      destruct (IH (S open) r1 Hp) as (r' & Hrun & Hr').
      { rewrite Hr1, Hr, size_wrap_succ. f_equal. lia. }
      exists r'. split; [|exact Hr'].
      cbn [birth_run births_in_flight map]. unfold mbind, prog_bind at 1.
      rewrite Hstep. unfold mbind, prog_bind at 1. rewrite Hrun.
      rewrite Hr, size_wrap_succ. cbn. do 3 f_equal. lia.
    + destruct open as [|open]; [discriminate|].
      destruct (birth_step_End size_bits r) as (r1 & Hstep & Hr1).
      destruct (IH open r1 Hp) as (r' & Hrun & Hr').
      { rewrite Hr1, Hr, size_wrap_pred. f_equal. lia. }
      exists r'. split; [|exact Hr'].
      cbn [birth_run births_in_flight map pred]. unfold mbind, prog_bind at 1.
      rewrite Hstep. unfold mbind, prog_bind at 1. rewrite Hrun.
      rewrite Hr, size_wrap_pred. cbn. do 3 f_equal. lia.
Qed.

(** While fewer than [2^size_bits] births are in flight the counter is their
    exact number: nothing wraps. *)
Lemma birth_run_exact (size_bits : N) (calls : list birth_call)
    (open : nat) (r : Runtime) :
  paired_from open calls = true ->
  threads_being_born_ r = Z.of_nat open ->
  Z.of_nat open < 2 ^ Z.of_N size_bits ->
  Forall (fun d => Z.of_nat d < 2 ^ Z.of_N size_bits)
    (births_in_flight open calls) ->
  exists r' : Runtime,
    birth_run size_bits calls r =
      Returns (Z.of_nat <$> births_in_flight open calls) r' /\
    threads_being_born_ r' = 0.
Proof.
  intros Hp Hr Hopen Hsmall.
  destruct (birth_run_tracks size_bits calls open r Hp) as (r' & Hrun & Hr').
  { rewrite Hr. symmetry. apply size_wrap_small. lia. }
  exists r'. split; [|exact Hr']. rewrite Hrun. f_equal.
  apply map_ext_Forall. eapply Forall_impl; [exact Hsmall|].
  intros d Hd. cbv beta in Hd. apply size_wrap_small. lia.
Qed.

(** C5: along every properly paired sequence of [StartThreadBirth] and
    [EndThreadBirth] calls that starts with the counter at zero, every call
    returns, [NumberOfThreadsBeingBorn()] is never negative after any of
    them (it is the number of births in flight, within the range of
    [size_t]), and it is zero once all pairs have completed. *)
Theorem paired_births_return_to_zero (size_bits : N)
    (calls : list birth_call) (r : Runtime) :
  properly_paired calls = true ->
  threads_being_born_ r = 0 ->
  exists (observed : list Z) (r' : Runtime),
    birth_run size_bits calls r = Returns observed r' /\
    observed =
      map (fun d => size_wrap size_bits (Z.of_nat d)) (births_in_flight 0 calls) /\
    Forall (fun n => 0 <= n) observed /\
    NumberOfThreadsBeingBorn r' = Returns 0 r'.
Proof.
  intros Hp Hr.
  destruct (birth_run_tracks size_bits calls 0 r Hp) as (r' & Hrun & Hr').
  { rewrite Hr. symmetry. apply size_wrap_small. lia. }
  eexists _, r'. split; [exact Hrun|]. split; [reflexivity|]. split.
  - apply Forall_map, Forall_forall. intros d _. cbn.
    apply size_wrap_range.
  - unfold NumberOfThreadsBeingBorn, gets. by rewrite Hr'.
Qed.

Lemma paired_births_return_to_zero_witness :
  exists (observed : list Z) (r' : Runtime),
    birth_run 32 [Start; Start; End_; Start; End_; End_] Runtime_new =
      Returns observed r' /\
    observed = [1; 2; 1; 2; 1; 0] /\
    NumberOfThreadsBeingBorn r' = Returns 0 r'.
Proof.
  destruct (paired_births_return_to_zero 32
              [Start; Start; End_; Start; End_; End_] Runtime_new)
    as (observed & r' & Hrun & Hobs & _ & Hzero); [reflexivity..|].
  exists observed, r'. split; [exact Hrun|]. split; [|exact Hzero].
  rewrite Hobs. reflexivity.
Defined.

(** ** Creation *)

Section CreationFacts.

Variable parse_option : string * ptr -> option (ParsedOptions.t -> ParsedOptions.t).



End CreationFacts.



(** ** Further properties of the header's member functions *)

Lemma set_threads_being_born_same (r : Runtime) :
  set_threads_being_born_ (threads_being_born_ r) r = r.
Proof. by destruct r. Qed.

Lemma set_resolution_method_same (r : Runtime) :
  set_resolution_method_ (resolution_method_ r) r = r.
Proof. by destruct r. Qed.

Lemma repeat_call_S {S} (n : nat) (m : prog S unit) (s s' : S) :
  m s = Returns tt s' ->
  repeat_call (Datatypes.S n) m s = repeat_call n m s'.
Proof.
  intros Hm. cbn [repeat_call]. unfold mbind, prog_bind at 1. by rewrite Hm.
Qed.

(** The state after [n] calls of [StartThreadBirth]: only the counter has
    moved. *)
Lemma repeat_StartThreadBirth (size_bits : N) (n : nat) :
  forall r : Runtime,
    repeat_call n (StartThreadBirth size_bits) r =
      Returns tt
        (set_threads_being_born_
           (match n with
            | O => threads_being_born_ r
            | S _ => size_wrap size_bits (threads_being_born_ r + Z.of_nat n)
            end) r).
Proof.
  induction n as [|n IH]; intros r.
  - cbn. by rewrite set_threads_being_born_same.
  - erewrite repeat_call_S by reflexivity. rewrite IH.
    f_equal. unfold set_threads_being_born_.
    cbn -[size_wrap Z.of_nat Z.add]. f_equal.
    destruct n as [|n]; [done|].
    unfold size_wrap. rewrite Z.add_mod_idemp_l by lia. f_equal. lia.
Qed.

(** X1: [n] calls of [StartThreadBirth] on a counter [c] within the range of
    [size_t] all return, whatever the shutdown flag, and leave the counter at
    [(c + n) mod 2^size_bits] with every other member as it was.  The
    increment wraps silently: after [2^size_bits] calls the runtime is back
    in the state it started from. *)
Theorem StartThreadBirth_repeated (size_bits : N) (n : nat) (r : Runtime) :
  0 <= threads_being_born_ r < 2 ^ Z.of_N size_bits ->
  (repeat_call n (StartThreadBirth size_bits);; NumberOfThreadsBeingBorn) r =
    Returns ((threads_being_born_ r + Z.of_nat n) mod 2 ^ Z.of_N size_bits)
      (set_threads_being_born_
         ((threads_being_born_ r + Z.of_nat n) mod 2 ^ Z.of_N size_bits) r) /\
  (Z.of_nat n = 2 ^ Z.of_N size_bits ->
   repeat_call n (StartThreadBirth size_bits) r = Returns tt r).
Proof.
  intros Hc.
  assert (Hn : match n with
               | O => threads_being_born_ r
               | S _ => size_wrap size_bits (threads_being_born_ r + Z.of_nat n)
               end = (threads_being_born_ r + Z.of_nat n) mod 2 ^ Z.of_N size_bits).
  { destruct n; [|done]. rewrite Z.add_0_r. symmetry. by apply Z.mod_small. }
  split.
  - unfold mbind, prog_bind. rewrite repeat_StartThreadBirth, Hn. reflexivity.
  - intros Hfull. rewrite repeat_StartThreadBirth, Hn, Hfull.
    rewrite <- (Z.mul_1_l (2 ^ Z.of_N size_bits)) at 1.
    rewrite Z.mod_add by lia. rewrite Z.mod_small by done.
    by rewrite set_threads_being_born_same.
Qed.

Lemma StartThreadBirth_repeated_witness :
  repeat_call 4 (StartThreadBirth 2) (set_threads_being_born_ 3 Runtime_new) =
    Returns tt (set_threads_being_born_ 3 Runtime_new).
Proof.
  apply (StartThreadBirth_repeated 2 4 (set_threads_being_born_ 3 Runtime_new));
    [cbn; lia|reflexivity].
Defined.

(** X2: the resolution slot is not write-once.  A second
    [SetResolutionMethod] replaces what the first one stored, storing the
    current content again changes nothing, and storing NULL clears the slot:
    [HasResolutionMethod] then answers false and [GetResolutionMethod]
    aborts, whatever had been installed before. *)
Theorem SetResolutionMethod_overwrites (m1 m2 : ptr) (r : Runtime) :
  (SetResolutionMethod m1;; SetResolutionMethod m2) r =
    SetResolutionMethod m2 r /\
  SetResolutionMethod (resolution_method_ r) r = Returns tt r /\
  (SetResolutionMethod m1;; SetResolutionMethod NULL;; HasResolutionMethod) r =
    Returns false (set_resolution_method_ NULL r) /\
  (SetResolutionMethod m1;; SetResolutionMethod NULL;; GetResolutionMethod) r =
    Aborts.
Proof.
  split; [reflexivity|]. split; [|split; reflexivity].
  unfold SetResolutionMethod, modify. by rewrite set_resolution_method_same.
Qed.

(** X3: a descriptor getter that returns has passed its check.
    [GetResolutionMethod] returns only a non-null descriptor, in every build.
    For a type that has a slot, [GetCalleeSaveMethod] returns only a non-null
    descriptor in a build with debug checks.  In both cases the value is the
    content of the slot and the runtime is left as it was. *)
Theorem checked_getters_never_null (type : CalleeSaveType) (r r' : Runtime)
    (p : ptr) :
  (GetResolutionMethod r = Returns p r' ->
   p <> NULL /\ r' = r /\ p = resolution_method_ r) /\
  (type <> kLastCalleeSaveType ->
   GetCalleeSaveMethod true type r = Returns p r' ->
   p <> NULL /\ r' = r /\
   vec_to_list (callee_save_methods_ r) !! CalleeSaveType_value type = Some p).
Proof.
  split.
  - unfold GetResolutionMethod, HasResolutionMethod. run_prog.
    destruct (is_null (resolution_method_ r)) eqn:Hnull; cbn; [discriminate|].
    intros [= <- <-]. split; [by apply is_null_false|done].
  - intros Hty.
    destruct (callee_save_slot_lookup (callee_save_methods_ r) type Hty)
      as [q Hq].
    unfold GetCalleeSaveMethod, HasCalleeSaveMethod, array_read. run_prog.
    rewrite Hq.
    destruct (is_null q) eqn:Hnull; cbv beta iota delta [negb];
      [discriminate|].
    rewrite Hq. intros [= <- <-].
    split; [by apply is_null_false|done].
Qed.

Lemma checked_getters_never_null_witness :
  kRefsOnly <> kLastCalleeSaveType /\
  GetCalleeSaveMethod true kRefsOnly
    (set_callee_save_methods_ [# NULL; 9%N; NULL] Runtime_new) =
    Returns 9%N (set_callee_save_methods_ [# NULL; 9%N; NULL] Runtime_new) /\
  (9%N : ptr) <> NULL.
Proof.
  split; [discriminate|]. split; [reflexivity|].
  destruct (checked_getters_never_null kRefsOnly
              (set_callee_save_methods_ [# NULL; 9%N; NULL] Runtime_new)
              (set_callee_save_methods_ [# NULL; 9%N; NULL] Runtime_new) 9%N)
    as [_ Hget].
  refine (proj1 (Hget _ eq_refl)). discriminate.
Defined.

Lemma prog_bind_Returns {S A B} (m : prog S A) (k : A -> prog S B)
    (s s' : S) (a : A) :
  m s = Returns a s' -> (m ≫= k) s = k a s'.
Proof. intros Hm. unfold mbind, prog_bind. by rewrite Hm. Qed.

(** A query that does not read the member an update writes answers the same
    before and after the update. *)
Ltac frame_query :=
  unfold GetCalleeSaveMethod, HasCalleeSaveMethod, GetResolutionMethod,
    HasResolutionMethod, GetHostPrefix, IsStarted, IsShuttingDown,
    NumberOfThreadsBeingBorn, SetResolutionMethod, array_read, result;
  run_prog;
  repeat (cbn [set_threads_being_born_ set_resolution_method_
               callee_save_methods_ resolution_method_ host_prefix_ started_
               shutting_down_ threads_being_born_ negb];
          match goal with
          | |- context [match ?x with _ => _ end] =>
              lazymatch x with
              | context [match _ with _ => _ end] => fail
              | _ => destruct x eqn:?
              end
          end);
  first [reflexivity | congruence].

(** X4: thread births do not touch the method registry or the lifecycle
    flags.  After any number of [StartThreadBirth] calls the descriptor
    queries, [GetHostPrefix], [IsShuttingDown] and [IsStarted] give the
    caller what they gave before, aborts included. *)
Theorem StartThreadBirth_frame (size_bits : N) (n : nat)
    (kEnableDChecks : bool) (type : CalleeSaveType) (r : Runtime) :
  let births := repeat_call n (StartThreadBirth size_bits) in
  result ((births;; HasCalleeSaveMethod type) r) =
    result (HasCalleeSaveMethod type r) /\
  result ((births;; GetCalleeSaveMethod kEnableDChecks type) r) =
    result (GetCalleeSaveMethod kEnableDChecks type r) /\
  result ((births;; HasResolutionMethod) r) = result (HasResolutionMethod r) /\
  result ((births;; GetResolutionMethod) r) = result (GetResolutionMethod r) /\
  result ((births;; GetHostPrefix kEnableDChecks) r) =
    result (GetHostPrefix kEnableDChecks r) /\
  result ((births;; IsShuttingDown) r) = result (IsShuttingDown r) /\
  result ((births;; IsStarted) r) = result (IsStarted r).
Proof.
  cbv zeta.
  rewrite !(prog_bind_Returns _ _ _ _ _ (repeat_StartThreadBirth size_bits n r)).
  repeat split; destruct kEnableDChecks; frame_query.
Qed.

(** X5: [SetResolutionMethod] writes the resolution slot and nothing else.
    Afterwards the callee-save queries, [GetHostPrefix],
    [NumberOfThreadsBeingBorn], [IsShuttingDown] and [IsStarted] give the
    caller what they gave before, aborts included. *)
Theorem SetResolutionMethod_frame (method : ptr) (kEnableDChecks : bool)
    (type : CalleeSaveType) (r : Runtime) :
  result ((SetResolutionMethod method;; HasCalleeSaveMethod type) r) =
    result (HasCalleeSaveMethod type r) /\
  result ((SetResolutionMethod method;; GetCalleeSaveMethod kEnableDChecks type) r) =
    result (GetCalleeSaveMethod kEnableDChecks type r) /\
  result ((SetResolutionMethod method;; GetHostPrefix kEnableDChecks) r) =
    result (GetHostPrefix kEnableDChecks r) /\
  result ((SetResolutionMethod method;; NumberOfThreadsBeingBorn) r) =
    result (NumberOfThreadsBeingBorn r) /\
  result ((SetResolutionMethod method;; IsShuttingDown) r) =
    result (IsShuttingDown r) /\
  result ((SetResolutionMethod method;; IsStarted) r) = result (IsStarted r).
Proof.
  repeat split; destruct kEnableDChecks; frame_query.
Qed.
